(** * Global AI Content Impact dashboard (app2.py): filtering and aggregation

    A shallow embedding of the data handling of the Streamlit script
    [app2.py]: the loaded table is a list of rows, the sidebar filter is a
    boolean mask built from three [isin] tests, and every chart table is a
    pandas [groupby(...)[col].agg()] followed, for ranking bars, by a
    [sort_values(..., ascending=False)].

    Numeric cells are [option Q] and text cells [option string]: [None] is
    a missing value (NaN) and [Some q] a present one. Sums and means are
    computed here in exact rational arithmetic; pandas computes them in
    binary floating point, in row order, so the results below about their
    values hold up to rounding. Module [FloatMean] gives pandas' float
    group mean for the results where the rounding matters. *)

From Stdlib Require Import List String ZArith QArith Bool Permutation Sorted Lia PrimFloat.
Set Warnings "-inexact-float".
Import ListNotations.
Open Scope string_scope.
Open Scope list_scope.

(** ** Data model *)

(** One row of [Global_AI_Content_Impact_Dataset.csv]. *)
Record Row := mkRow {
  Year : Z;
  Country : string;
  Industry : string;
  ai_adoption_rate : option Q;            (* 'AI Adoption Rate (%)' *)
  ai_content_volume : option Q;           (* 'AI-Generated Content Volume (TBs per year)' *)
  job_loss : option Q;                    (* 'Job Loss Due to AI (%)' *)
  revenue_increase : option Q;            (* 'Revenue Increase Due to AI (%)' *)
  collaboration_rate : option Q;          (* 'Human-AI Collaboration Rate (%)' *)
  consumer_trust : option Q;              (* 'Consumer Trust in AI (%)' *)
  top_ai_tools : option string;           (* 'Top AI Tools Used' *)
  regulation_status : option string       (* 'Regulation Status' *)
}.

Definition DataFrame := list Row.

(** The numeric columns that the select boxes of the script offer. *)
Inductive Column :=
| AIAdoptionRate
| AIContentVolume
| JobLoss
| RevenueIncrease
| CollaborationRate
| ConsumerTrust.

Definition col (c : Column) (r : Row) : option Q :=
  match c with
  | AIAdoptionRate => ai_adoption_rate r
  | AIContentVolume => ai_content_volume r
  | JobLoss => job_loss r
  | RevenueIncrease => revenue_increase r
  | CollaborationRate => collaboration_rate r
  | ConsumerTrust => consumer_trust r
  end.

(** ** Generic list operations used by pandas' [unique], [sorted], [isin] *)

Section ListOps.
Context {K : Type} (eqb : K -> K -> bool) (leb : K -> K -> bool).

(** [Series.isin(sel)] for one cell. *)
Definition isin (sel : list K) (v : K) : bool := existsb (eqb v) sel.

(** [Series.unique()]: first occurrences, in order. *)
Fixpoint unique_from (seen : list K) (l : list K) : list K :=
  match l with
  | [] => []
  | x :: t =>
      if existsb (eqb x) seen then unique_from seen t
      else x :: unique_from (x :: seen) t
  end.

Definition unique (l : list K) : list K := unique_from [] l.

(** [sorted(...)] and the key sort of [groupby]: a sort by [leb]. *)
Fixpoint insert (x : K) (l : list K) : list K :=
  match l with
  | [] => [x]
  | y :: t => if leb x y then x :: y :: t else y :: insert x t
  end.

Fixpoint sort (l : list K) : list K :=
  match l with
  | [] => []
  | x :: t => insert x (sort t)
  end.
End ListOps.

(** ** The sidebar filter (lines 29-71) *)

Definition isin_Z := isin Z.eqb.
Definition isin_str := isin String.eqb.

(** [years = sorted(df['Year'].unique())] and the like. *)
Definition years (df : DataFrame) : list Z := sort Z.leb (unique Z.eqb (map Year df)).
Definition countries (df : DataFrame) : list string :=
  sort String.leb (unique String.eqb (map Country df)).
Definition industries (df : DataFrame) : list string :=
  sort String.leb (unique String.eqb (map Industry df)).

(** [df[(df['Year'].isin(sy)) & (df['Country'].isin(sc)) & (df['Industry'].isin(si))]] *)
Definition filter_mask (selected_years : list Z) (selected_countries selected_industries : list string)
  (r : Row) : bool :=
  isin_Z selected_years (Year r) && isin_str selected_countries (Country r)
  && isin_str selected_industries (Industry r).

Definition filtered_df (df : DataFrame) (selected_years : list Z)
  (selected_countries selected_industries : list string) : DataFrame :=
  filter (filter_mask selected_years selected_countries selected_industries) df.

(** The values of the four sidebar widgets of one script run. *)
Record Widgets := mkWidgets {
  years_multiselect : list Z;                 (* key="years_multiselect" *)
  countries_multiselect : list string;        (* key="countries_multiselect" *)
  industries_multiselect : list string;       (* key="industries_multiselect" *)
  industries_multiselect_unkeyed : list string (* second "Select Industries", no key *)
}.

(** Lines 39-71: the second assignment to [selected_industries] replaces the first. *)
Definition script_filtered_df (df : DataFrame) (w : Widgets) : DataFrame :=
  let selected_years := years_multiselect w in
  let selected_countries := countries_multiselect w in
  let selected_industries := industries_multiselect w in
  let selected_industries := industries_multiselect_unkeyed w in
  filtered_df df selected_years selected_countries selected_industries.

(** ** Aggregations (pandas semantics, [skipna=True]) *)

(** [Series.sum()]: missing values are skipped; the empty sum is [0]
    (exact arithmetic; pandas rounds every addition, see [FloatMean]). *)
Fixpoint series_sum (l : list (option Q)) : Q :=
  match l with
  | [] => 0
  | Some x :: t => x + series_sum t
  | None :: t => series_sum t
  end.

(** [Series.count()]: the number of non-missing values. *)
Fixpoint series_count (l : list (option Q)) : nat :=
  match l with
  | [] => O
  | Some _ :: t => S (series_count t)
  | None :: t => series_count t
  end.

(** [Series.mean()]: sum over count of the non-missing values, NaN ([None])
    when there is none. *)
Definition series_mean (l : list (option Q)) : option Q :=
  match series_count l with
  | O => None
  | n => Some (series_sum l / inject_Z (Z.of_nat n))
  end.

(** [df.groupby(key)] followed by a per-group reduction: the groups are the
    distinct key values present in the frame, in ascending key order
    ([sort=True]); each group holds the rows with that key, in frame order. *)
Section GroupBy.
Context {K A : Type} (keqb kleb : K -> K -> bool) (key : Row -> K).

Definition group_keys (df : DataFrame) : list K := sort kleb (unique keqb (map key df)).

Definition group_rows (df : DataFrame) (k : K) : DataFrame :=
  filter (fun r => keqb (key r) k) df.

Definition groupby_agg (agg : DataFrame -> A) (df : DataFrame) : list (K * A) :=
  map (fun k => (k, agg (group_rows df k))) (group_keys df).
End GroupBy.

(** The three reductions of the script: [mean()], [sum()] over a column, and
    the row count per group of [value_counts()]. *)
Definition agg_mean (c : Column) (rows : DataFrame) : option Q := series_mean (map (col c) rows).
Definition agg_sum (c : Column) (rows : DataFrame) : Q := series_sum (map (col c) rows).
Definition agg_size (rows : DataFrame) : nat := List.length rows.

(** Key orders: pandas sorts string keys by code point, and multi-column
    keys lexicographically. *)
Definition pair_eqb (p q : Z * string) : bool := Z.eqb (fst p) (fst q) && String.eqb (snd p) (snd q).
Definition pair_leb (p q : Z * string) : bool :=
  Z.ltb (fst p) (fst q) || (Z.eqb (fst p) (fst q) && String.leb (snd p) (snd q)).

(** [sort_values(col, ascending=False)]: larger values first, NaN last. *)
Definition desc_leb (a b : option Q) : bool :=
  match a, b with
  | Some x, Some y => Qle_bool y x
  | Some _, None => true
  | None, Some _ => false
  | None, None => true
  end.

Definition sort_values_desc {K A : Type} (val : A -> option Q) (t : list (K * A)) : list (K * A) :=
  sort (fun p q => desc_leb (val (snd p)) (val (snd q))) t.

(** ** The chart tables built from [filtered_df] *)

Definition groupby_country_mean (c : Column) (fdf : DataFrame) : list (string * option Q) :=
  groupby_agg String.eqb String.leb Country (agg_mean c) fdf.
Definition groupby_industry_mean (c : Column) (fdf : DataFrame) : list (string * option Q) :=
  groupby_agg String.eqb String.leb Industry (agg_mean c) fdf.

(** Line 163: [filtered_df.groupby('Country')[volume].mean().reset_index()]. *)
Definition content_volume (fdf : DataFrame) : list (string * option Q) :=
  groupby_country_mean AIContentVolume fdf.

(** Lines 164 and 179: the tables handed to [px.bar]. *)
Definition content_volume_bars (fdf : DataFrame) : list (string * option Q) :=
  sort_values_desc id (content_volume fdf).
Definition country_metric (metric : Column) (fdf : DataFrame) : list (string * option Q) :=
  groupby_country_mean metric fdf.
Definition country_metric_bars (metric : Column) (fdf : DataFrame) : list (string * option Q) :=
  sort_values_desc id (country_metric metric fdf).

(** Lines 208-209. *)
Definition industry_metric (metric : Column) (fdf : DataFrame) : list (string * option Q) :=
  groupby_industry_mean metric fdf.
Definition industry_metric_bars (metric : Column) (fdf : DataFrame) : list (string * option Q) :=
  sort_values_desc id (industry_metric metric fdf).

(** Lines 218, 225 and 241: [groupby(['Year', g])[metric].mean()]. *)
Inductive GroupBy := ByCountry | ByIndustry.

Definition group_by_col (g : GroupBy) (r : Row) : string :=
  match g with ByCountry => Country r | ByIndustry => Industry r end.

Definition time_trend (g : GroupBy) (metric : Column) (fdf : DataFrame) : list ((Z * string) * option Q) :=
  groupby_agg pair_eqb pair_leb (fun r => (Year r, group_by_col g r)) (agg_mean metric) fdf.
Definition country_trend (fdf : DataFrame) := time_trend ByCountry AIAdoptionRate fdf.
Definition industry_trend (fdf : DataFrame) := time_trend ByIndustry AIAdoptionRate fdf.

(** [Series.dropna()] of an object column. *)
Fixpoint dropna_str (l : list (option string)) : list string :=
  match l with
  | [] => []
  | Some x :: t => x :: dropna_str t
  | None :: t => dropna_str t
  end.

(** [Series.value_counts()]: missing cells are dropped; the distinct values,
    in order of first appearance, each with its number of occurrences, then
    sorted by count, largest first; the sort is stable, so equal counts keep
    the order of first appearance. *)
Definition value_counts (l : list (option string)) : list (string * nat) :=
  let vals := dropna_str l in
  sort (fun p q => Nat.leb (snd q) (snd p))
    (map (fun v => (v, List.length (filter (fun x => String.eqb x v) vals))) (unique String.eqb vals)).

(** Line 277: [filtered_df['Top AI Tools Used'].value_counts()]. *)
Definition tool_counts (fdf : DataFrame) : list (string * nat) :=
  value_counts (map top_ai_tools fdf).

(** Lines 86-115: the KPI row of the Overview tab. *)
Record Overview := mkOverview {
  avg_adoption : option Q;
  avg_job_loss : option Q;
  avg_revenue : option Q;
  avg_trust : option Q;
  total_content : Q;
  avg_collab : option Q;
  num_countries : nat;
  num_industries : nat
}.

Definition overview (fdf : DataFrame) : Overview :=
  mkOverview
    (agg_mean AIAdoptionRate fdf)
    (agg_mean JobLoss fdf)
    (agg_mean RevenueIncrease fdf)
    (agg_mean ConsumerTrust fdf)
    (agg_sum AIContentVolume fdf)
    (agg_mean CollaborationRate fdf)
    (List.length (unique String.eqb (map Country fdf)))
    (List.length (unique String.eqb (map Industry fdf))).

(** Lines 288-291 and 342-345: [st.selectbox(label, options)] returns the
    option at the position the user picked ([index], 0 until the user picks
    another one, always a position of the list), and [None] when [options]
    is empty. *)
Definition selectbox {A : Type} (options : list A) (index : nat) : option A :=
  nth_error options index.

(** [filtered_df['Industry'].unique()], the options of line 290. *)
Definition industry_options (fdf : DataFrame) : list string := unique String.eqb (map Industry fdf).
Definition country_options (fdf : DataFrame) : list string := unique String.eqb (map Country fdf).

(** Line 294: [filtered_df[filtered_df['Industry'] == selected_industry]];
    comparing with [None] keeps no row. *)
Definition industry_tools (fdf : DataFrame) (selected_industry : option string) : DataFrame :=
  filter (fun r => match selected_industry with
                   | Some s => String.eqb (Industry r) s
                   | None => false
                   end) fdf.

(** Line 348. *)
Definition country_tools (fdf : DataFrame) (selected_country : option string) : DataFrame :=
  filter (fun r => match selected_country with
                   | Some s => String.eqb (Country r) s
                   | None => false
                   end) fdf.

(** Lines 295-299 and 349-353: the [(tool, count)] pairs of the pie charts. *)
Definition industry_pie_data (fdf : DataFrame) (index : nat) : list (string * nat) :=
  tool_counts (industry_tools fdf (selectbox (industry_options fdf) index)).
Definition country_pie_data (fdf : DataFrame) (index : nat) : list (string * nat) :=
  tool_counts (country_tools fdf (selectbox (country_options fdf) index)).

(** ** pandas' float group mean

    [groupby(key)[col].mean()] runs [group_mean] of pandas'
    [_libs/groupby.pyx] on float64 values: per group, a Kahan-compensated
    sum taken in row order ([y = val - comp; t = sumx + y;
    comp = t - sumx - y], a NaN compensation reset to 0), divided by the
    number of non-missing values. The exact-rational [series_mean] abstracts
    from this rounding; the module below keeps it, over a frame of
    (group key, float cell) pairs. *)
Module FloatMean.
Local Open Scope float_scope.

Fixpoint float_of_nat (n : nat) : float :=
  match n with
  | O => 0
  | S m => float_of_nat m + 1
  end.

Fixpoint kahan_from (sumx comp : float) (nobs : nat) (l : list (option float)) : float * nat :=
  match l with
  | [] => (sumx, nobs)
  | None :: t => kahan_from sumx comp nobs t
  | Some v :: t =>
      let y := v - comp in
      let s := sumx + y in
      let c := s - sumx - y in
      let c := if PrimFloat.eqb c c then c else 0 in
      kahan_from s c (S nobs) t
  end.

Definition group_mean (l : list (option float)) : option float :=
  match kahan_from 0 0 O l with
  | (_, O) => None
  | (s, n) => Some (s / float_of_nat n)
  end.

(** [groupby(key)[col].mean()] over (key, cell) pairs, keys ascending. *)
Definition groupby_mean (t : list (string * option float)) : list (string * option float) :=
  map (fun k => (k, group_mean (map snd (filter (fun p => String.eqb (fst p) k) t))))
    (sort String.leb (unique String.eqb (map fst t))).
End FloatMean.

(** ** Sample rows *)

Definition sample_row (y : Z) (c i : string) (adoption volume : option Q) : Row :=
  mkRow y c i adoption volume (Some 10) (Some 20) (Some 30) (Some 40) (Some "ChatGPT") (Some "Moderate").

Definition sample_df : DataFrame :=
  [ sample_row 2020 "USA" "Media" (Some 40) (Some 10);
    sample_row 2020 "USA" "Media" (Some 60) (Some 20);
    sample_row 2021 "UK" "Retail" (Some 30) (Some 5) ].

Example sample_filter :
  List.length (filtered_df sample_df [2020%Z] ["USA"] ["Media"]) = 2%nat.
Proof. reflexivity. Qed.

Example sample_mean :
  avg_adoption (overview (filtered_df sample_df [2020%Z] ["USA"] ["Media"])) = Some (100 / 2).
Proof. reflexivity. Qed.

(** ** Generic facts about the list operations *)

Section ListFacts.
Context {K : Type} (eqb : K -> K -> bool).
Hypothesis eqb_spec : forall a b, eqb a b = true <-> a = b.

Lemma isin_true (sel : list K) (v : K) : isin eqb sel v = true <-> In v sel.
Proof.
  unfold isin. rewrite existsb_exists. split.
  - intros [x [Hin He]]. apply eqb_spec in He. subst. exact Hin.
  - intros H. exists v. split; [exact H | apply eqb_spec; reflexivity].
Qed.

Lemma unique_from_sub (seen l : list K) (x : K) : In x (unique_from eqb seen l) -> In x l.
Proof.
  revert seen. induction l as [|y t IH]; intros seen; simpl; [tauto|].
  destruct (existsb (eqb y) seen).
  - intros H. right. exact (IH _ H).
  - intros [H|H]; [left; exact H | right; exact (IH _ H)].
Qed.

Lemma unique_from_sup (seen l : list K) (x : K) :
  In x l -> In x seen \/ In x (unique_from eqb seen l).
Proof.
  revert seen. induction l as [|y t IH]; intros seen Hx; simpl in *; [tauto|].
  destruct (existsb (eqb y) seen) eqn:Hy.
  - destruct Hx as [<-|Hx].
    + left. apply existsb_exists in Hy as [z [Hz He]].
      apply eqb_spec in He. subst. exact Hz.
    + exact (IH _ Hx).
  - destruct Hx as [<-|Hx]; [right; left; reflexivity|].
    destruct (IH (y :: seen) Hx) as [[<-|H]|H]; simpl; tauto.
Qed.

Lemma In_unique (l : list K) (x : K) : In x (unique eqb l) <-> In x l.
Proof.
  split; [apply unique_from_sub|].
  intros H. destruct (unique_from_sup [] l x H) as [[]|H']. exact H'.
Qed.

Context (leb : K -> K -> bool).

Lemma insert_perm (x : K) (l : list K) : Permutation (insert leb x l) (x :: l).
Proof.
  induction l as [|y t IH]; simpl; [reflexivity|].
  destruct (leb x y); [reflexivity|].
  rewrite IH. apply perm_swap.
Qed.

Lemma sort_perm (l : list K) : Permutation (sort leb l) l.
Proof.
  induction l as [|x t IH]; simpl; [reflexivity|].
  rewrite insert_perm, IH. reflexivity.
Qed.

Lemma In_sort (l : list K) (x : K) : In x (sort leb l) <-> In x l.
Proof. split; apply Permutation_in; [apply sort_perm | symmetry; apply sort_perm]. Qed.

Hypothesis leb_total : forall a b, leb a b = false -> leb b a = true.

Let R (a b : K) : Prop := leb a b = true.

Lemma insert_HdRel (x y : K) (l : list K) :
  R y x -> HdRel R y l -> HdRel R y (insert leb x l).
Proof.
  intros Hyx Hd. destruct l as [|z t]; simpl.
  - constructor. exact Hyx.
  - destruct (leb x z); constructor; [exact Hyx | inversion Hd; assumption].
Qed.

Lemma insert_sorted (x : K) (l : list K) : Sorted R l -> Sorted R (insert leb x l).
Proof.
  induction l as [|y t IH]; intros Hs; simpl.
  - repeat constructor.
  - inversion Hs as [|? ? Ht Hd]; subst.
    destruct (leb x y) eqn:Hxy.
    + constructor; [exact Hs | constructor; exact Hxy].
    + constructor; [exact (IH Ht) |].
      apply insert_HdRel; [apply leb_total; exact Hxy | exact Hd].
Qed.

Lemma sort_sorted (l : list K) : Sorted R (sort leb l).
Proof.
  induction l as [|x t IH]; simpl; [constructor|].
  apply insert_sorted, IH.
Qed.
End ListFacts.

Lemma Sorted_map_impl {A B : Type} (R : A -> A -> Prop) (S : B -> B -> Prop) (f : A -> B) (l : list A) :
  (forall a b, R a b -> S (f a) (f b)) -> Sorted R l -> Sorted S (map f l).
Proof.
  intros Himp Hs. induction Hs as [|a t Ht IH Hd]; simpl; constructor; [exact IH|].
  destruct Hd; simpl; constructor. apply Himp. assumption.
Qed.

Lemma filter_perm {A : Type} (f : A -> bool) (l l' : list A) :
  Permutation l l' -> Permutation (filter f l) (filter f l').
Proof.
  induction 1 as [|x l l' _ IH|x y l|l l' l'' _ IH1 _ IH2]; simpl.
  - constructor.
  - destruct (f x); [constructor|]; exact IH.
  - destruct (f x), (f y); try constructor; reflexivity.
  - rewrite IH1. exact IH2.
Qed.

Section GroupByFacts.
Context {K A : Type} (keqb kleb : K -> K -> bool) (key : Row -> K).
Hypothesis keqb_spec : forall a b, keqb a b = true <-> a = b.

Lemma In_group_keys (df : DataFrame) (k : K) :
  In k (group_keys keqb kleb key df) <-> exists r, In r df /\ key r = k.
Proof.
  unfold group_keys. rewrite In_sort, (In_unique _ keqb_spec).
  rewrite in_map_iff. split; intros [r [H1 H2]]; exists r; tauto.
Qed.

Lemma In_groupby (agg : DataFrame -> A) (df : DataFrame) (k : K) (v : A) :
  In (k, v) (groupby_agg keqb kleb key agg df) <->
  In k (group_keys keqb kleb key df) /\ v = agg (group_rows keqb key df k).
Proof.
  unfold groupby_agg. rewrite in_map_iff. split.
  - intros [k' [Heq Hin]]. inversion Heq; subst. tauto.
  - intros [Hin ->]. exists k. tauto.
Qed.

Lemma group_rows_perm (df df' : DataFrame) (k : K) :
  Permutation df df' -> Permutation (group_rows keqb key df k) (group_rows keqb key df' k).
Proof. apply filter_perm. Qed.
End GroupByFacts.

Lemma pair_eqb_spec (p q : Z * string) : pair_eqb p q = true <-> p = q.
Proof.
  destruct p as [y1 c1], q as [y2 c2]. unfold pair_eqb. simpl.
  rewrite andb_true_iff, Z.eqb_eq, String.eqb_eq. split.
  - intros [-> ->]. reflexivity.
  - intros H. inversion H. tauto.
Qed.

Lemma pair_leb_total (p q : Z * string) : pair_leb p q = false -> pair_leb q p = true.
Proof.
  destruct p as [y1 c1], q as [y2 c2]. unfold pair_leb. simpl.
  rewrite orb_false_iff, andb_false_iff, Z.ltb_ge, Z.eqb_neq.
  intros [Hle [Hne|Hc]]; apply orb_true_iff.
  - left. apply Z.ltb_lt. lia.
  - assert (y1 = y2 \/ y2 < y1)%Z as [->|Hlt] by lia.
    + right. rewrite Z.eqb_refl. simpl.
      destruct (String.leb_total c1 c2) as [H|H]; congruence.
    + left. apply Z.ltb_lt. exact Hlt.
Qed.

Lemma desc_leb_total (a b : option Q) : desc_leb a b = false -> desc_leb b a = true.
Proof.
  destruct a as [x|], b as [y|]; simpl; try discriminate; try reflexivity.
  intros H. apply Qle_bool_iff. apply Qlt_le_weak, Qnot_le_lt.
  intros Hle. apply Qle_bool_iff in Hle. congruence.
Qed.

(** ** Claims about the filter *)

(** C1: [filtered_df] holds exactly the rows whose Year, Country and Industry
    are all selected (a conjunction of the three memberships); in particular
    it is contained in the loaded table. *)
Theorem filtered_df_spec (df : DataFrame) (sy : list Z) (sc si : list string) (r : Row) :
  In r (filtered_df df sy sc si) <->
  In r df /\ In (Year r) sy /\ In (Country r) sc /\ In (Industry r) si.
Proof.
  unfold filtered_df, filter_mask, isin_Z, isin_str.
  rewrite filter_In, !andb_true_iff,
    (isin_true _ Z.eqb_eq), !(isin_true _ String.eqb_eq).
  tauto.
Qed.

(** C3: if any of the three selections is empty the filtered frame is empty;
    [filtered_df] is a total function, it has no failing case. *)
Theorem filtered_df_empty_selection (df : DataFrame) (sy : list Z) (sc si : list string) :
  sy = [] \/ sc = [] \/ si = [] -> filtered_df df sy sc si = [].
Proof.
  intros Hempty. unfold filtered_df.
  induction df as [|r t IH]; simpl; [reflexivity|].
  unfold filter_mask at 1.
  destruct Hempty as [ -> | [ -> | -> ] ]; simpl;
    rewrite ?andb_false_r; exact IH.
Qed.

Lemma filtered_df_empty_selection_witness :
  filtered_df sample_df [2020%Z] [] ["Media"] = [].
Proof. apply filtered_df_empty_selection. right. left. reflexivity. Defined.

(** C4: with the default selections (every distinct Year, Country and
    Industry of the table) the filter keeps every row, in order. *)
Theorem filtered_df_full_selection (df : DataFrame) :
  filtered_df df (years df) (countries df) (industries df) = df.
Proof.
  unfold filtered_df. apply forallb_filter_id. apply forallb_forall.
  intros r Hr. unfold filter_mask, isin_Z, isin_str, years, countries, industries.
  rewrite !andb_true_iff,
    (isin_true _ Z.eqb_eq), !(isin_true _ String.eqb_eq),
    In_sort, (In_unique _ Z.eqb_eq), In_sort, (In_unique _ String.eqb_eq),
    In_sort, (In_unique _ String.eqb_eq).
  split; [split|]; apply in_map; exact Hr.
Qed.

(** C10: the filtered frame does not depend on the keyed "Select Industries"
    widget: its value is overwritten by the second, unkeyed one before the
    filter is applied. *)
Theorem script_filtered_df_ignores_keyed_industries (df : DataFrame) (w1 w2 : Widgets) :
  years_multiselect w1 = years_multiselect w2 ->
  countries_multiselect w1 = countries_multiselect w2 ->
  industries_multiselect_unkeyed w1 = industries_multiselect_unkeyed w2 ->
  script_filtered_df df w1 = script_filtered_df df w2.
Proof.
  intros Hy Hc Hi. unfold script_filtered_df. rewrite Hy, Hc, Hi. reflexivity.
Qed.

Lemma script_filtered_df_ignores_keyed_industries_witness :
  script_filtered_df sample_df (mkWidgets [2020%Z] ["USA"] ["Retail"] ["Media"]) =
  script_filtered_df sample_df (mkWidgets [2020%Z] ["USA"] [] ["Media"]).
Proof. apply script_filtered_df_ignores_keyed_industries; reflexivity. Defined.

(** ** Claims about the aggregations *)

(** The USA/UK sample used for the country content-volume scenario. *)
Definition volume_df : DataFrame :=
  [ sample_row 2020 "USA" "Media" (Some 40) (Some 10);
    sample_row 2021 "USA" "Retail" (Some 50) (Some 20);
    sample_row 2021 "UK" "Retail" (Some 30) (Some 5) ].

Definition volume_view : DataFrame :=
  filtered_df volume_df (years volume_df) ["USA"] (industries volume_df).

(** C2 (as stated, refuted): the country content-volume table handed to the
    bar chart does not hold [(USA, 30)] when the USA rows have volumes 10 and
    20, because line 163 reduces with [mean()]. *)
Lemma content_volume_not_sum :
  exists q, content_volume volume_view = [("USA", Some q)] /\ ~ (q == 30).
Proof.
  eexists. split; [reflexivity|]. unfold Qeq. simpl. discriminate.
Qed.

(** C2 (amended): the country content-volume table averages: a USA group made
    of two rows with volumes 10 and 20 gives [(USA, 15)]; summing the same two
    rows, as the Total AI Content Volume KPI does, gives 30. *)
Theorem content_volume_mean_of_usa (fdf : DataFrame) (r1 r2 : Row) :
  group_rows String.eqb Country fdf "USA" = [r1; r2] ->
  ai_content_volume r1 = Some 10 -> ai_content_volume r2 = Some 20 ->
  (exists q, In ("USA", Some q) (content_volume fdf) /\ q == 15) /\
  agg_sum AIContentVolume (group_rows String.eqb Country fdf "USA") == 30.
Proof.
  intros Hg H1 H2. split.
  - exists ((10 + (20 + 0)) / inject_Z 2). split; [|unfold Qeq; reflexivity].
    unfold content_volume, groupby_country_mean.
    apply (In_groupby String.eqb String.leb Country). split.
    + apply (In_group_keys String.eqb String.leb Country String.eqb_eq).
      assert (Hin : In r1 (group_rows String.eqb Country fdf "USA")) by (rewrite Hg; left; reflexivity).
      unfold group_rows in Hin. apply filter_In in Hin as [Hin He].
      apply String.eqb_eq in He. exists r1. tauto.
    + rewrite Hg. unfold agg_mean. simpl. rewrite H1, H2. reflexivity.
  - rewrite Hg. unfold agg_sum. simpl. rewrite H1, H2. unfold Qeq. reflexivity.
Qed.

Lemma content_volume_mean_of_usa_witness :
  (exists q, In ("USA", Some q) (content_volume volume_view) /\ q == 15) /\
  agg_sum AIContentVolume (group_rows String.eqb Country volume_view "USA") == 30.
Proof.
  apply (content_volume_mean_of_usa volume_view
           (sample_row 2020 "USA" "Media" (Some 40) (Some 10))
           (sample_row 2021 "USA" "Retail" (Some 50) (Some 20)));
    reflexivity.
Defined.

(** C5 (as stated, refuted): on an empty filtered frame not every aggregation
    is NaN or empty: the Total AI Content Volume KPI is a sum, the number 0,
    and the coverage counts are 0. *)
Lemma empty_view_total_is_zero :
  filtered_df sample_df [2020%Z] [] ["Media"] = [] /\
  total_content (overview (filtered_df sample_df [2020%Z] [] ["Media"])) = 0 /\
  num_countries (overview (filtered_df sample_df [2020%Z] [] ["Media"])) = 0%nat.
Proof. repeat split. Qed.

(** C5 (amended): when the filtered frame is empty, every KPI mean is NaN,
    the total content volume is 0, the coverage counts are 0, and every
    group-by table is empty; all of them are total computations. *)
Theorem empty_view_aggregations (df : DataFrame) (sy : list Z) (sc si : list string)
  (c : Column) (g : GroupBy) :
  filtered_df df sy sc si = [] ->
  overview (filtered_df df sy sc si) = mkOverview None None None None 0 None 0 0 /\
  content_volume_bars (filtered_df df sy sc si) = [] /\
  country_metric_bars c (filtered_df df sy sc si) = [] /\
  industry_metric_bars c (filtered_df df sy sc si) = [] /\
  time_trend g c (filtered_df df sy sc si) = [] /\
  tool_counts (filtered_df df sy sc si) = [].
Proof. intros H. rewrite H. repeat split. Qed.

Lemma empty_view_aggregations_witness :
  filtered_df sample_df [2020%Z] [] ["Media"] = [] /\
  overview (filtered_df sample_df [2020%Z] [] ["Media"]) = mkOverview None None None None 0 None 0 0.
Proof.
  split; [reflexivity|].
  apply (empty_view_aggregations sample_df [2020%Z] [] ["Media"] AIAdoptionRate ByCountry).
  reflexivity.
Defined.

Lemma sort_values_desc_sorted {K A : Type} (val : A -> option Q) (t : list (K * A)) :
  Sorted (fun p q => desc_leb (val (snd p)) (val (snd q)) = true) (sort_values_desc val t).
Proof.
  unfold sort_values_desc. apply sort_sorted.
  intros a b. apply desc_leb_total.
Qed.

(** C6: the ranking tables handed to the bar charts are in descending order
    of the aggregate ([desc_leb]: a larger value before a smaller one, NaN
    groups last), and every trend table ([groupby(['Year', g])]) is in
    ascending order of Year. *)
Theorem chart_table_order (metric : Column) (g : GroupBy) (fdf : DataFrame) :
  Sorted (fun p q => desc_leb (snd p) (snd q) = true) (country_metric_bars metric fdf) /\
  Sorted (fun p q => desc_leb (snd p) (snd q) = true) (industry_metric_bars metric fdf) /\
  Sorted (fun p q => desc_leb (snd p) (snd q) = true) (content_volume_bars fdf) /\
  Sorted (fun p q => (fst (fst p) <= fst (fst q))%Z) (time_trend g metric fdf).
Proof.
  split; [|split; [|split]]; try apply (sort_values_desc_sorted id).
  unfold time_trend, groupby_agg.
  apply (Sorted_map_impl (fun a b => pair_leb a b = true)).
  - intros [y1 c1] [y2 c2]. unfold pair_leb. simpl.
    rewrite orb_true_iff, andb_true_iff, Z.ltb_lt, Z.eqb_eq. lia.
  - apply sort_sorted. exact pair_leb_total.
Qed.

(** Statement helpers for C7: the present values of a column, and their mean. *)
Fixpoint dropna (l : list (option Q)) : list Q :=
  match l with
  | [] => []
  | Some x :: t => x :: dropna t
  | None :: t => dropna t
  end.

Definition mean_of_present (xs : list Q) : option Q :=
  match xs with
  | [] => None
  | _ => Some (fold_right Qplus 0 xs / inject_Z (Z.of_nat (List.length xs)))
  end.

Lemma series_sum_dropna (l : list (option Q)) : series_sum l = fold_right Qplus 0 (dropna l).
Proof. induction l as [|[x|] t IH]; simpl; congruence. Qed.

Lemma series_count_dropna (l : list (option Q)) : series_count l = List.length (dropna l).
Proof. induction l as [|[x|] t IH]; simpl; congruence. Qed.

Lemma series_mean_dropna (l : list (option Q)) : series_mean l = mean_of_present (dropna l).
Proof.
  unfold series_mean, mean_of_present.
  rewrite series_count_dropna, series_sum_dropna.
  destruct (dropna l); reflexivity.
Qed.

(** C7: in every group-by table, the mean and the sum of a group are those of
    its present values only (a missing value adds nothing to the sum and
    nothing to the mean's denominator), and a key appears in the table exactly
    when some row of the frame has it: a key without rows is absent. *)
Theorem groupby_skipna_present_groups {K : Type} (keqb kleb : K -> K -> bool)
  (keqb_spec : forall a b, keqb a b = true <-> a = b) (key : Row -> K)
  (c : Column) (df : DataFrame) :
  (forall k v, In (k, v) (groupby_agg keqb kleb key (agg_mean c) df) ->
     v = mean_of_present (dropna (map (col c) (group_rows keqb key df k)))) /\
  (forall k v, In (k, v) (groupby_agg keqb kleb key (agg_sum c) df) ->
     v = fold_right Qplus 0 (dropna (map (col c) (group_rows keqb key df k)))) /\
  (forall (A : Type) (agg : DataFrame -> A) (k : K),
     (exists v, In (k, v) (groupby_agg keqb kleb key agg df)) <-> exists r, In r df /\ key r = k).
Proof.
  split; [|split].
  - intros k v H. apply In_groupby in H as [_ ->].
    unfold agg_mean. apply series_mean_dropna.
  - intros k v H. apply In_groupby in H as [_ ->].
    unfold agg_sum. apply series_sum_dropna.
  - intros A agg k. rewrite <- (In_group_keys keqb kleb key keqb_spec). split.
    + intros [v H]. apply In_groupby in H. tauto.
    + intros H. exists (agg (group_rows keqb key df k)). apply In_groupby. tauto.
Qed.

Lemma groupby_skipna_present_groups_witness :
  (exists v, In ("UK", v) (groupby_agg String.eqb String.leb Country (agg_mean AIAdoptionRate) sample_df)) <->
  exists r, In r sample_df /\ Country r = "UK".
Proof.
  apply (groupby_skipna_present_groups String.eqb String.leb String.eqb_eq Country AIAdoptionRate sample_df).
Defined.

(** A group-by table is determined, as a set of pairs, by an aggregation that
    does not depend on the order of the group's rows. *)
Lemma groupby_perm_set {K A : Type} (keqb kleb : K -> K -> bool)
  (keqb_spec : forall a b, keqb a b = true <-> a = b) (key : Row -> K)
  (agg : DataFrame -> A) (df df' : DataFrame) :
  (forall rows rows', Permutation rows rows' -> agg rows = agg rows') ->
  Permutation df df' ->
  forall p, In p (groupby_agg keqb kleb key agg df) <-> In p (groupby_agg keqb kleb key agg df').
Proof.
  intros Hagg Hp [k v]. rewrite !In_groupby, !(In_group_keys keqb kleb key keqb_spec).
  rewrite (Hagg _ _ (group_rows_perm keqb key df df' k Hp)).
  split; intros [[r [Hr Hk]] Hv]; split; auto; exists r; split; auto.
  - exact (Permutation_in _ Hp Hr).
  - exact (Permutation_in _ (Permutation_sym Hp) Hr).
Qed.

(** C8 (as stated, refuted): in pandas' float arithmetic the group mean
    depends on the order of the group's rows: the Country group
    [69.58, 26.63, 80.18] and its permutation [69.58, 80.18, 26.63] give
    different means (58.79666666666666 and 58.796666666666674). *)
Lemma groupby_mean_float_order_dependent :
  Permutation [("USA", Some 69.58%float); ("USA", Some 26.63%float); ("USA", Some 80.18%float)]
              [("USA", Some 69.58%float); ("USA", Some 80.18%float); ("USA", Some 26.63%float)] /\
  exists m1 m2,
    FloatMean.groupby_mean [("USA", Some 69.58%float); ("USA", Some 26.63%float); ("USA", Some 80.18%float)]
      = [("USA", Some m1)] /\
    FloatMean.groupby_mean [("USA", Some 69.58%float); ("USA", Some 80.18%float); ("USA", Some 26.63%float)]
      = [("USA", Some m2)] /\
    PrimFloat.eqb m1 m2 = false.
Proof.
  split; [apply perm_skip, perm_swap|].
  do 2 eexists. split; [vm_compute; reflexivity|]. split; [vm_compute; reflexivity|].
  vm_compute. reflexivity.
Qed.

(** C8 (amended): permuting the rows of the filtered frame leaves the set of
    group keys and the set of (key, row count) pairs of every group-by table
    unchanged, and hands every group the same cells of every column up to
    order; only the rounding of the float mean and sum of those cells may
    depend on the order. *)
Theorem groupby_permutation_keys_values {K : Type} (keqb kleb : K -> K -> bool)
  (keqb_spec : forall a b, keqb a b = true <-> a = b) (key : Row -> K)
  (c : Column) (df df' : DataFrame) :
  Permutation df df' ->
  (forall k, In k (group_keys keqb kleb key df) <-> In k (group_keys keqb kleb key df')) /\
  (forall p, In p (groupby_agg keqb kleb key agg_size df) <->
             In p (groupby_agg keqb kleb key agg_size df')) /\
  (forall k, Permutation (map (col c) (group_rows keqb key df k))
                         (map (col c) (group_rows keqb key df' k))).
Proof.
  intros Hp. split; [|split].
  - intros k. rewrite !(In_group_keys keqb kleb key keqb_spec).
    split; intros [r [Hr Hk]]; exists r; split; auto.
    + exact (Permutation_in _ Hp Hr).
    + exact (Permutation_in _ (Permutation_sym Hp) Hr).
  - apply (groupby_perm_set keqb kleb keqb_spec key); auto.
    intros rows rows' Hr. apply Permutation_length, Hr.
  - intros k. apply Permutation_map, group_rows_perm, Hp.
Qed.

Lemma groupby_permutation_keys_values_witness :
  Permutation (map (col AIAdoptionRate) (group_rows String.eqb Country sample_df "USA"))
              (map (col AIAdoptionRate) (group_rows String.eqb Country (rev sample_df) "USA")).
Proof.
  apply (groupby_permutation_keys_values String.eqb String.leb String.eqb_eq Country AIAdoptionRate).
  apply Permutation_rev.
Defined.

Lemma agg_mean_single (c : Column) (r : Row) : agg_mean c [r] = col c r.
Proof.
  unfold agg_mean, series_mean. simpl. destruct (col c r) as [[n d]|]; [|reflexivity].
  simpl. unfold Qdiv, Qmult, Qplus, Qinv. simpl. f_equal. f_equal; lia.
Qed.

(** C9: a group of exactly one row has, as its mean, that row's value of the
    column (present or missing). *)
Theorem groupby_mean_single_row {K : Type} (keqb kleb : K -> K -> bool)
  (keqb_spec : forall a b, keqb a b = true <-> a = b) (key : Row -> K)
  (c : Column) (df : DataFrame) (k : K) (r : Row) :
  group_rows keqb key df k = [r] ->
  In (k, col c r) (groupby_agg keqb kleb key (agg_mean c) df) /\
  (forall v, In (k, v) (groupby_agg keqb kleb key (agg_mean c) df) -> v = col c r).
Proof.
  intros Hg. split.
  - apply In_groupby. split.
    + apply (In_group_keys keqb kleb key keqb_spec).
      assert (Hin : In r (group_rows keqb key df k)) by (rewrite Hg; left; reflexivity).
      unfold group_rows in Hin. apply filter_In in Hin as [Hin He].
      apply keqb_spec in He. exists r. tauto.
    + rewrite Hg. symmetry. apply agg_mean_single.
  - intros v H. apply In_groupby in H as [_ ->]. rewrite Hg. apply agg_mean_single.
Qed.

Lemma groupby_mean_single_row_witness :
  In ("UK", Some 30) (groupby_agg String.eqb String.leb Country (agg_mean AIAdoptionRate) sample_df).
Proof.
  apply (groupby_mean_single_row String.eqb String.leb String.eqb_eq Country AIAdoptionRate sample_df "UK"
           (sample_row 2021 "UK" "Retail" (Some 30) (Some 5))).
  reflexivity.
Defined.

(** ** Further properties of the script *)

Open Scope nat_scope.

Section UniqueFacts.
Context {K : Type} (eqb : K -> K -> bool).
Hypothesis eqb_spec : forall a b, eqb a b = true <-> a = b.

Lemma unique_from_nodup (seen l : list K) :
  NoDup (unique_from eqb seen l) /\ (forall x, In x (unique_from eqb seen l) -> ~ In x seen).
Proof.
  revert seen. induction l as [|y t IH]; intros seen; simpl.
  - split; [constructor | tauto].
  - destruct (existsb (eqb y) seen) eqn:Hy; [apply IH|].
    destruct (IH (y :: seen)) as [Hnd Hout]. split.
    + constructor; [|exact Hnd]. intros H. apply (Hout y H). left. reflexivity.
    + intros x [<-|H].
      * intros Hin. assert (existsb (eqb y) seen = true) as Ht; [|congruence].
        apply existsb_exists. exists y. split; [exact Hin | apply eqb_spec; reflexivity].
      * intros Hin. apply (Hout x H). right. exact Hin.
Qed.

Lemma unique_nodup (l : list K) : NoDup (unique eqb l).
Proof. apply unique_from_nodup. Qed.

Lemma indicator_sum_zero (a : K) (ks : list K) :
  ~ In a ks -> list_sum (map (fun k => if eqb a k then 1 else 0) ks) = 0.
Proof.
  induction ks as [|k t IH]; simpl; intros Hn; [reflexivity|].
  destruct (eqb a k) eqn:E.
  - apply eqb_spec in E. subst. exfalso. apply Hn. left. reflexivity.
  - apply IH. tauto.
Qed.

Lemma indicator_sum_one (a : K) (ks : list K) :
  NoDup ks -> In a ks -> list_sum (map (fun k => if eqb a k then 1 else 0) ks) = 1.
Proof.
  induction 1 as [|k t Hk Hnd IH]; simpl; [tauto|]. intros [Heq|H].
  - subst k. rewrite (proj2 (eqb_spec a a) eq_refl). rewrite indicator_sum_zero by exact Hk. reflexivity.
  - destruct (eqb a k) eqn:E.
    + apply eqb_spec in E. subst. contradiction.
    + apply IH, H.
Qed.
End UniqueFacts.

Lemma list_sum_map_add {A : Type} (f g : A -> nat) (l : list A) :
  list_sum (map (fun x => f x + g x) l) = list_sum (map f l) + list_sum (map g l).
Proof. induction l as [|x t IH]; simpl; [reflexivity|]. rewrite IH. lia. Qed.

Lemma list_sum_map_zero {A : Type} (l : list A) : list_sum (map (fun _ => 0) l) = 0.
Proof. induction l; simpl; auto. Qed.

Lemma group_keys_nodup {K : Type} (keqb kleb : K -> K -> bool)
  (keqb_spec : forall a b, keqb a b = true <-> a = b) (key : Row -> K) (df : DataFrame) :
  NoDup (group_keys keqb kleb key df).
Proof.
  unfold group_keys. apply (Permutation_NoDup (Permutation_sym (sort_perm _ _))).
  apply (unique_nodup _ keqb_spec).
Qed.

Lemma groupby_fst {K A : Type} (keqb kleb : K -> K -> bool) (key : Row -> K)
  (agg : DataFrame -> A) (df : DataFrame) :
  map fst (groupby_agg keqb kleb key agg df) = group_keys keqb kleb key df.
Proof. unfold groupby_agg. rewrite map_map. apply map_id. Qed.

Lemma In_length_pos {A : Type} (x : A) (l : list A) : In x l -> 1 <= List.length l.
Proof. destruct l; simpl; [tauto | lia]. Qed.

(** Counting the occurrences of each of a duplicate-free list of keys that
    covers a list counts every element once. *)
Lemma occurrences_sum {K : Type} (eqb : K -> K -> bool)
  (eqb_spec : forall a b, eqb a b = true <-> a = b) (ks l : list K) :
  NoDup ks -> (forall x, In x l -> In x ks) ->
  list_sum (map (fun k => List.length (filter (fun x => eqb x k) l)) ks) = List.length l.
Proof.
  intros Hnd. induction l as [|a t IH]; intros Hcov; simpl.
  - apply list_sum_map_zero.
  - rewrite (map_ext _ (fun k => (if eqb a k then 1 else 0) +
                                 List.length (filter (fun x => eqb x k) t))).
    + rewrite list_sum_map_add, (indicator_sum_one eqb eqb_spec) by (auto; apply Hcov; left; reflexivity).
      rewrite IH by (intros x H; apply Hcov; right; exact H). reflexivity.
    + intros k. destruct (eqb a k); reflexivity.
Qed.

Lemma value_counts_total (l : list (option string)) :
  list_sum (map snd (value_counts l)) = List.length (dropna_str l).
Proof.
  unfold value_counts. rewrite (Permutation_list_sum (Permutation_map snd (sort_perm _ _))).
  rewrite map_map. simpl.
  apply (occurrences_sum String.eqb String.eqb_eq); [apply (unique_nodup _ String.eqb_eq)|].
  intros x Hx. apply (In_unique _ String.eqb_eq). exact Hx.
Qed.

Lemma value_counts_In (l : list (option string)) (t : string) (n : nat) :
  In (t, n) (value_counts l) ->
  In t (dropna_str l) /\ n = List.length (filter (fun x => String.eqb x t) (dropna_str l)).
Proof.
  unfold value_counts. intros H. apply (Permutation_in _ (sort_perm _ _)) in H.
  apply in_map_iff in H as [v [Heq Hv]]. inversion Heq; subst.
  split; [exact (proj1 (In_unique _ String.eqb_eq _ _) Hv) | reflexivity].
Qed.

Lemma value_counts_count_pos (l : list (option string)) (t : string) (n : nat) :
  In (t, n) (value_counts l) -> 1 <= n.
Proof.
  intros H. apply value_counts_In in H as [Ht ->]. apply (In_length_pos t).
  apply filter_In. split; [exact Ht | apply String.eqb_refl].
Qed.

Lemma value_counts_keys_nodup (l : list (option string)) : NoDup (map fst (value_counts l)).
Proof.
  unfold value_counts. apply (Permutation_NoDup (Permutation_map fst (Permutation_sym (sort_perm _ _)))).
  rewrite map_map. simpl. rewrite map_id. apply (unique_nodup _ String.eqb_eq).
Qed.

Lemma value_counts_sorted (l : list (option string)) :
  Sorted (fun p q => snd q <= snd p) (value_counts l).
Proof.
  rewrite <- (map_id (value_counts l)).
  apply (Sorted_map_impl (fun p q => Nat.leb (snd q) (snd p) = true)).
  - intros p q H. apply Nat.leb_le. exact H.
  - unfold value_counts. apply sort_sorted.
    intros p q H. apply Nat.leb_gt in H. apply Nat.leb_le. lia.
Qed.

(** Statement helpers: a row whose 'Top AI Tools Used' cell is present, and
    one whose cell is the tool [t]. *)
Definition has_tool (r : Row) : bool :=
  match top_ai_tools r with Some _ => true | None => false end.

Definition uses_tool (t : string) (r : Row) : bool :=
  match top_ai_tools r with Some t' => String.eqb t' t | None => false end.

Lemma dropna_tools_length (fdf : DataFrame) :
  List.length (dropna_str (map top_ai_tools fdf)) = List.length (filter has_tool fdf).
Proof.
  induction fdf as [|r t IH]; simpl; [reflexivity|].
  destruct (has_tool r) eqn:Eh; unfold has_tool in Eh;
    destruct (top_ai_tools r); simpl; congruence.
Qed.

Lemma dropna_tools_count (fdf : DataFrame) (t : string) :
  List.length (filter (fun x => String.eqb x t) (dropna_str (map top_ai_tools fdf))) =
  List.length (filter (uses_tool t) fdf).
Proof.
  induction fdf as [|r rs IH]; simpl; [reflexivity|].
  destruct (uses_tool t r) eqn:Eu; unfold uses_tool in Eu;
    destruct (top_ai_tools r) as [t'|]; simpl; try congruence;
    rewrite Eu; simpl; congruence.
Qed.

(** X1: the tool-popularity table ([value_counts()], line 277) counts every
    row of the filtered frame whose tool cell is present once, and no other:
    the counts add up to the number of such rows, each tool appears once
    with the number of rows naming it (at least 1), and the tools come in
    descending order of count. *)
Theorem tool_counts_spec (fdf : DataFrame) :
  list_sum (map snd (tool_counts fdf)) = List.length (filter has_tool fdf) /\
  NoDup (map fst (tool_counts fdf)) /\
  (forall t n, In (t, n) (tool_counts fdf) ->
     n = List.length (filter (uses_tool t) fdf) /\ 1 <= n) /\
  Sorted (fun p q => snd q <= snd p) (tool_counts fdf).
Proof.
  unfold tool_counts. split; [|split; [|split]].
  - rewrite value_counts_total. apply dropna_tools_length.
  - apply value_counts_keys_nodup.
  - intros t n H. split; [|exact (value_counts_count_pos _ _ _ H)].
    apply value_counts_In in H as [_ ->]. apply dropna_tools_count.
  - apply value_counts_sorted.
Qed.

Lemma selected_tools_spec (key : Row -> string) (fdf : DataFrame) (index : nat) :
  index < List.length (unique String.eqb (map key fdf)) ->
  exists s, selectbox (unique String.eqb (map key fdf)) index = Some s /\ In s (map key fdf) /\
    list_sum (map snd (tool_counts (filter (fun r => String.eqb (key r) s) fdf))) =
      List.length (filter has_tool (filter (fun r => String.eqb (key r) s) fdf)) /\
    (tool_counts (filter (fun r => String.eqb (key r) s) fdf) <> [] <->
       exists r, In r fdf /\ key r = s /\ has_tool r = true).
Proof.
  intros Hi. unfold selectbox.
  destruct (nth_error (unique String.eqb (map key fdf)) index) as [s|] eqn:E;
    [| apply nth_error_Some in Hi; contradiction].
  assert (Hs : In s (map key fdf)).
  { apply (In_unique _ String.eqb_eq). apply nth_error_In in E. exact E. }
  exists s. split; [reflexivity|]. split; [exact Hs|].
  remember (filter (fun r => String.eqb (key r) s) fdf) as g eqn:Hg.
  assert (Hsum : list_sum (map snd (tool_counts g)) = List.length (filter has_tool g)).
  { unfold tool_counts. rewrite value_counts_total. apply dropna_tools_length. }
  split; [exact Hsum|]. split.
  - intros Hne. destruct (tool_counts g) as [|[t n] rest] eqn:Etc; [contradiction|].
    assert (Hn : 1 <= n).
    { apply (value_counts_count_pos (map top_ai_tools g) t n).
      change (In (t, n) (tool_counts g)). rewrite Etc. left. reflexivity. }
    simpl in Hsum. destruct (filter has_tool g) as [|r rs] eqn:Eh; [simpl in Hsum; lia|].
    assert (Hr : In r (filter has_tool g)) by (rewrite Eh; left; reflexivity).
    apply filter_In in Hr as [Hr Hh]. rewrite Hg in Hr. apply filter_In in Hr as [Hr Hk].
    apply String.eqb_eq in Hk. exists r. tauto.
  - intros [r [Hr [Hk Hh]]] Hnil. rewrite Hnil in Hsum. simpl in Hsum.
    assert (Hin : In r (filter has_tool g)).
    { apply filter_In. split; [|exact Hh]. rewrite Hg. apply filter_In. split; [exact Hr|].
      apply String.eqb_eq. exact Hk. }
    apply In_length_pos in Hin. lia.
Qed.

(** X2: the industry tool pie (lines 288-299): on an empty filtered frame it
    has no slice; otherwise the industry picked among the frame's industries
    occurs in the frame, the pie's counts add up to the number of rows of
    that industry with a present tool cell, and the pie has a slice exactly
    when such a row exists. *)
Theorem industry_pie_data_spec (fdf : DataFrame) (index : nat) :
  (fdf = [] -> industry_pie_data fdf index = []) /\
  (index < List.length (industry_options fdf) ->
   exists s, selectbox (industry_options fdf) index = Some s /\ In s (map Industry fdf) /\
     list_sum (map snd (industry_pie_data fdf index)) =
       List.length (filter has_tool (filter (fun r => String.eqb (Industry r) s) fdf)) /\
     (industry_pie_data fdf index <> [] <->
        exists r, In r fdf /\ Industry r = s /\ has_tool r = true)).
Proof.
  split.
  - intros ->. unfold industry_pie_data, selectbox. destruct index; reflexivity.
  - intros Hi. unfold industry_options in *.
    destruct (selected_tools_spec Industry fdf index Hi) as [s [Hsel Hrest]].
    exists s. split; [exact Hsel|].
    unfold industry_pie_data, industry_options. rewrite Hsel. exact Hrest.
Qed.

Lemma industry_pie_data_spec_witness :
  In "Media" (map Industry sample_df) /\
  list_sum (map snd (industry_pie_data sample_df 0)) = 2.
Proof.
  destruct (proj2 (industry_pie_data_spec sample_df 0) ltac:(simpl; lia))
    as [s [Hsel [Hin [Hsum _]]]].
  simpl in Hsel. injection Hsel as <-. split; [exact Hin|]. rewrite Hsum. reflexivity.
Defined.

(** X3: the country tool pie (lines 342-353), likewise. *)
Theorem country_pie_data_spec (fdf : DataFrame) (index : nat) :
  (fdf = [] -> country_pie_data fdf index = []) /\
  (index < List.length (country_options fdf) ->
   exists s, selectbox (country_options fdf) index = Some s /\ In s (map Country fdf) /\
     list_sum (map snd (country_pie_data fdf index)) =
       List.length (filter has_tool (filter (fun r => String.eqb (Country r) s) fdf)) /\
     (country_pie_data fdf index <> [] <->
        exists r, In r fdf /\ Country r = s /\ has_tool r = true)).
Proof.
  split.
  - intros ->. unfold country_pie_data, selectbox. destruct index; reflexivity.
  - intros Hi. unfold country_options in *.
    destruct (selected_tools_spec Country fdf index Hi) as [s [Hsel Hrest]].
    exists s. split; [exact Hsel|].
    unfold country_pie_data, country_options. rewrite Hsel. exact Hrest.
Qed.

Lemma country_pie_data_spec_witness :
  In "UK" (map Country sample_df) /\
  list_sum (map snd (country_pie_data sample_df 1)) = 1.
Proof.
  destruct (proj2 (country_pie_data_spec sample_df 1) ltac:(simpl; lia))
    as [s [Hsel [Hin [Hsum _]]]].
  simpl in Hsel. injection Hsel as <-. split; [exact Hin|]. rewrite Hsum. reflexivity.
Defined.

Lemma unique_from_length {K : Type} (eqb : K -> K -> bool) (seen l : list K) :
  List.length (unique_from eqb seen l) <= List.length l.
Proof.
  revert seen. induction l as [|x t IH]; intros seen; simpl; [lia|].
  destruct (existsb (eqb x) seen); simpl; [specialize (IH seen) | specialize (IH (x :: seen))]; lia.
Qed.

Lemma filtered_df_mask (df : DataFrame) (sy : list Z) (sc si : list string) (r : Row) :
  In r (filtered_df df sy sc si) -> In (Year r) sy /\ In (Country r) sc /\ In (Industry r) si.
Proof.
  unfold filtered_df, filter_mask, isin_Z, isin_str. rewrite filter_In, !andb_true_iff,
    (isin_true _ Z.eqb_eq), !(isin_true _ String.eqb_eq).
  tauto.
Qed.

Lemma group_table_length {K A : Type} (keqb kleb : K -> K -> bool) (key : Row -> K)
  (agg : DataFrame -> A) (df : DataFrame) :
  List.length (groupby_agg keqb kleb key agg df) = List.length (unique keqb (map key df)).
Proof.
  unfold groupby_agg, group_keys. rewrite length_map. apply Permutation_length, sort_perm.
Qed.

(** X4: the "Countries Covered" and "Industries Covered" KPIs (lines
    111-115) equal the number of bars of the country and industry comparison
    charts, never exceed the number of selected countries (industries), and
    never exceed the number of rows of the filtered frame. *)
Theorem coverage_kpis (df : DataFrame) (sy : list Z) (sc si : list string) (c : Column) :
  let fdf := filtered_df df sy sc si in
  num_countries (overview fdf) = List.length (country_metric c fdf) /\
  num_industries (overview fdf) = List.length (industry_metric c fdf) /\
  num_countries (overview fdf) <= List.length sc /\
  num_industries (overview fdf) <= List.length si /\
  num_countries (overview fdf) <= List.length fdf /\
  num_industries (overview fdf) <= List.length fdf.
Proof.
  intros fdf. simpl. unfold country_metric, industry_metric, groupby_country_mean, groupby_industry_mean.
  rewrite !group_table_length.
  split; [reflexivity|]. split; [reflexivity|]. split; [|split; [|split]].
  - apply NoDup_incl_length; [apply (unique_nodup _ String.eqb_eq)|].
    intros x Hx. apply (In_unique _ String.eqb_eq), in_map_iff in Hx as [r [<- Hr]].
    apply (filtered_df_mask df sy sc si r) in Hr. tauto.
  - apply NoDup_incl_length; [apply (unique_nodup _ String.eqb_eq)|].
    intros x Hx. apply (In_unique _ String.eqb_eq), in_map_iff in Hx as [r [<- Hr]].
    apply (filtered_df_mask df sy sc si r) in Hr. tauto.
  - rewrite <- (length_map Country fdf). apply unique_from_length.
  - rewrite <- (length_map Industry fdf). apply unique_from_length.
Qed.

Lemma filter_narrow {A : Type} (f g : A -> bool) (l : list A) :
  (forall x, f x = true -> g x = true) -> filter f (filter g l) = filter f l.
Proof.
  intros Hfg. induction l as [|x t IH]; simpl; [reflexivity|].
  destruct (g x) eqn:Eg; simpl.
  - destruct (f x); congruence.
  - destruct (f x) eqn:Ef; [apply Hfg in Ef; congruence | exact IH].
Qed.

(** X5: narrowing the sidebar selection gives the same frame as filtering
    the wider frame again with the narrower selection. *)
Theorem filtered_df_narrow (df : DataFrame) (sy sy' : list Z) (sc sc' si si' : list string) :
  incl sy' sy -> incl sc' sc -> incl si' si ->
  filtered_df (filtered_df df sy sc si) sy' sc' si' = filtered_df df sy' sc' si'.
Proof.
  intros Hy Hc Hi. unfold filtered_df. apply filter_narrow.
  intros r. unfold filter_mask, isin_Z, isin_str. rewrite !andb_true_iff,
    !(isin_true _ Z.eqb_eq), !(isin_true _ String.eqb_eq).
  intros [[H1 H2] H3]. repeat split; auto.
Qed.

Lemma filtered_df_narrow_witness :
  filtered_df (filtered_df sample_df [2020%Z; 2021%Z] ["USA"; "UK"] ["Media"; "Retail"])
    [2020%Z] ["USA"] ["Media"] = filtered_df sample_df [2020%Z] ["USA"] ["Media"].
Proof.
  apply filtered_df_narrow; intros x Hx; simpl in *; tauto.
Defined.

(** X6: only the set of selected values matters: selections with the same
    elements, in any order and with any repetition, give the same frame. *)
Theorem filtered_df_selection_as_set (df : DataFrame) (sy sy' : list Z) (sc sc' si si' : list string) :
  (forall y, In y sy <-> In y sy') -> (forall c, In c sc <-> In c sc') ->
  (forall i, In i si <-> In i si') ->
  filtered_df df sy sc si = filtered_df df sy' sc' si'.
Proof.
  intros Hy Hc Hi. unfold filtered_df. apply filter_ext. intros r.
  unfold filter_mask, isin_Z, isin_str.
  assert (Ey : isin Z.eqb sy (Year r) = isin Z.eqb sy' (Year r)).
  { apply Bool.eq_iff_eq_true. rewrite !(isin_true _ Z.eqb_eq). apply Hy. }
  assert (Ec : isin String.eqb sc (Country r) = isin String.eqb sc' (Country r)).
  { apply Bool.eq_iff_eq_true. rewrite !(isin_true _ String.eqb_eq). apply Hc. }
  assert (Ei : isin String.eqb si (Industry r) = isin String.eqb si' (Industry r)).
  { apply Bool.eq_iff_eq_true. rewrite !(isin_true _ String.eqb_eq). apply Hi. }
  rewrite Ey, Ec, Ei. reflexivity.
Qed.

Lemma filtered_df_selection_as_set_witness :
  filtered_df sample_df [2021%Z; 2020%Z; 2020%Z] ["UK"; "USA"] ["Retail"; "Media"] =
  filtered_df sample_df [2020%Z; 2021%Z] ["USA"; "UK"] ["Media"; "Retail"].
Proof. apply filtered_df_selection_as_set; intros x; simpl; tauto. Defined.

Lemma sorted_unique_nodup {K : Type} (eqb leb : K -> K -> bool)
  (eqb_spec : forall a b, eqb a b = true <-> a = b) (l : list K) :
  NoDup (sort leb (unique eqb l)).
Proof. apply (Permutation_NoDup (Permutation_sym (sort_perm _ _))), (unique_nodup _ eqb_spec). Qed.

Lemma Z_leb_total (a b : Z) : Z.leb a b = false -> Z.leb b a = true.
Proof. intros H. apply Z.leb_gt in H. apply Z.leb_le. lia. Qed.

Lemma string_leb_total (a b : string) : String.leb a b = false -> String.leb b a = true.
Proof. intros H. destruct (String.leb_total a b); congruence. Qed.

Lemma sorted_unique_spec {K : Type} (eqb leb : K -> K -> bool)
  (eqb_spec : forall a b, eqb a b = true <-> a = b)
  (leb_total : forall a b, leb a b = false -> leb b a = true) (l : list K) :
  NoDup (sort leb (unique eqb l)) /\ Sorted (fun a b => leb a b = true) (sort leb (unique eqb l)) /\
  forall x, In x (sort leb (unique eqb l)) <-> In x l.
Proof.
  split; [apply (sorted_unique_nodup _ _ eqb_spec)|]. split; [apply sort_sorted, leb_total|].
  intros x. rewrite In_sort. apply (In_unique _ eqb_spec).
Qed.

(** X7: the options of the three sidebar multiselects (lines 30-32) list
    each Year, Country and Industry of the table once, in ascending order,
    and are exactly the values present in the table. *)
Theorem sidebar_options_spec (df : DataFrame) :
  (NoDup (years df) /\ Sorted (fun a b => Z.leb a b = true) (years df) /\
     forall y, In y (years df) <-> In y (map Year df)) /\
  (NoDup (countries df) /\ Sorted (fun a b => String.leb a b = true) (countries df) /\
     forall c, In c (countries df) <-> In c (map Country df)) /\
  (NoDup (industries df) /\ Sorted (fun a b => String.leb a b = true) (industries df) /\
     forall i, In i (industries df) <-> In i (map Industry df)).
Proof.
  unfold years, countries, industries.
  split; [|split]; apply sorted_unique_spec;
    first [exact Z.eqb_eq | exact String.eqb_eq | exact Z_leb_total | exact string_leb_total].
Qed.

(** X8: every group-by table of the script, one key or (Year, key), has each
    group key once: one bar per country or industry, one point per year and
    line in the trend charts. *)
Theorem groupby_keys_unique {K A : Type} (keqb kleb : K -> K -> bool)
  (keqb_spec : forall a b, keqb a b = true <-> a = b) (key : Row -> K)
  (agg : DataFrame -> A) (df : DataFrame) :
  NoDup (map fst (groupby_agg keqb kleb key agg df)).
Proof. rewrite groupby_fst. apply (group_keys_nodup _ _ keqb_spec). Qed.

Lemma groupby_keys_unique_witness :
  NoDup (map fst (time_trend ByCountry AIAdoptionRate sample_df)).
Proof. unfold time_trend. apply (groupby_keys_unique pair_eqb pair_leb pair_eqb_spec). Defined.

Lemma bars_perm_nodup {K : Type} (t : list (K * option Q)) :
  NoDup (map fst t) ->
  Permutation (sort_values_desc id t) t /\ NoDup (map fst (sort_values_desc id t)).
Proof.
  intros Hnd. split; [apply sort_perm|].
  apply (Permutation_NoDup (Permutation_map fst (Permutation_sym (sort_perm _ _)))). exact Hnd.
Qed.

(** X9: sorting for the bar charts (lines 164, 179, 209) drops and adds no
    group: each bar table is a reordering of its group-by table and names
    each country or industry once. *)
Theorem bar_tables_spec (c : Column) (fdf : DataFrame) :
  (Permutation (content_volume_bars fdf) (content_volume fdf) /\
     NoDup (map fst (content_volume_bars fdf))) /\
  (Permutation (country_metric_bars c fdf) (country_metric c fdf) /\
     NoDup (map fst (country_metric_bars c fdf))) /\
  (Permutation (industry_metric_bars c fdf) (industry_metric c fdf) /\
     NoDup (map fst (industry_metric_bars c fdf))).
Proof.
  split; [|split]; apply bars_perm_nodup;
    unfold content_volume, country_metric, industry_metric, groupby_country_mean, groupby_industry_mean;
    rewrite groupby_fst;
    apply (group_keys_nodup _ _ String.eqb_eq).
Qed.
